(** * Black-Jack-Adviser: a shallow embedding of the decision engine

    The development follows the Python package [bj_advisor/src]:
    - [core/card.py]   : [Rank], [Card], [Shoe]
    - [core/hand.py]   : [Hand], [SplitHands]
    - [core/rules.py]  : [Rules]
    - [strategy/basic_strategy.py] : [Action], [BasicStrategy]
    - [strategy/index_plays.py]    : [IndexPlay], [IndexPlays]
    - [strategy/advisor.py]        : [Advisor]

    Conventions.  Python [int] is [Z]; list positions and [len] are [nat];
    a Python [set] of indices is a [gset nat]; the nested [dict]s of the
    strategy tables are [gmap Z (gmap Z Action)].  A raised exception is the
    left injection of a sum.  The true count is a Python [float]; the engine
    only ever compares it with constants, and the order of finite floats is
    the order of the rationals they denote, so it is a [Q] here (a NaN, for
    which every comparison is false, is outside the model). *)

From Stdlib Require Import ZArith QArith String Ascii List Lia.
From stdpp Require Import base decidable option list gmap sets.

Local Open Scope Z_scope.

(** ** Exceptions *)

Inductive exn : Type :=
  | ValueError (msg : string)
  | IndexError.

(** ** Strings: [str.upper] on the ASCII range *)

Module Str.

(** [c.upper()] for one character: the letters a..z move to A..Z and every
    other ASCII character is left alone.  Bytes above 127 (the UTF-8
    encoding of other characters) are left alone as well: no character
    outside ASCII has an upper-case form equal to a rank symbol, so this
    decides acceptance exactly as Python does. *)
Definition upper_char (c : ascii) : ascii :=
  let n := N_of_ascii c in
  if ((97 <=? n) && (n <=? 122))%N then ascii_of_N (n - 32) else c.

Fixpoint upper (s : string) : string :=
  match s with
  | EmptyString => EmptyString
  | String c s' => String (upper_char c) (upper s')
  end.

End Str.

(** ** core/card.py *)

Module Rank.

Inductive t : Type :=
  | TWO | THREE | FOUR | FIVE | SIX | SEVEN | EIGHT | NINE
  | TEN | JACK | QUEEN | KING | ACE.

#[global] Instance eq_dec : EqDecision t.
Proof. solve_decision. Defined.

(** The value tuple of each member: [(symbol, bj_value, hi_lo_value)]. *)
Definition value (r : t) : string * Z * Z :=
  match r with
  | TWO => ("2"%string, 2, 1)
  | THREE => ("3"%string, 3, 1)
  | FOUR => ("4"%string, 4, 1)
  | FIVE => ("5"%string, 5, 1)
  | SIX => ("6"%string, 6, 1)
  | SEVEN => ("7"%string, 7, 0)
  | EIGHT => ("8"%string, 8, 0)
  | NINE => ("9"%string, 9, 0)
  | TEN => ("T"%string, 10, -1)
  | JACK => ("J"%string, 10, -1)
  | QUEEN => ("Q"%string, 10, -1)
  | KING => ("K"%string, 10, -1)
  | ACE => ("A"%string, 11, -1)
  end.

Definition symbol (r : t) : string := fst (fst (value r)).
Definition bj_value (r : t) : Z := snd (fst (value r)).
Definition hi_lo_value (r : t) : Z := snd (value r).

(** Iteration over the enumeration ([for rank in cls]) follows the order of
    declaration. *)
Definition members : list t :=
  [TWO; THREE; FOUR; FIVE; SIX; SEVEN; EIGHT; NINE; TEN; JACK; QUEEN; KING; ACE].

(** The token after [upper()] and the rewriting of ["10"] to ["T"]. *)
Definition normalize (rank_str : string) : string :=
  let rank_str := Str.upper rank_str in
  if String.eqb rank_str "10" then "T"%string else rank_str.

Definition from_string (rank_str : string) : exn + t :=
  let rank_str := normalize rank_str in
  match List.find (fun rank => String.eqb (symbol rank) rank_str) members with
  | Some rank => inr rank
  | None => inl (ValueError ("Invalid rank: " ++ rank_str))
  end.

Definition __str__ (r : t) : string := symbol r.

End Rank.

Module Card.

Record t : Type := mk { rank : Rank.t }.

#[global] Instance eq_dec : EqDecision t.
Proof. solve_decision. Defined.

Definition hi_lo_value (c : t) : Z := Rank.hi_lo_value (rank c).
Definition value (c : t) : Z := Rank.bj_value (rank c).

Definition from_string (card_str : string) : exn + t :=
  match Rank.from_string card_str with
  | inr r => inr (mk r)
  | inl e => inl e
  end.

Definition __str__ (c : t) : string := Rank.__str__ (rank c).

End Card.

Module Shoe.

Record t : Type := mk {
  num_decks : Z;
  penetration_threshold : Q;
  cards_dealt : list Card.t;
  running_count : Z
}.

(** [Shoe.__init__] *)
Definition init (num_decks : Z) (penetration_threshold : Q) : t :=
  mk num_decks penetration_threshold [] 0.

Definition cards_remaining (s : t) : Z :=
  let total_cards := num_decks s * 52 in
  total_cards - Z.of_nat (length (cards_dealt s)).

Definition deal_card (s : t) (card : Card.t) : t :=
  mk (num_decks s) (penetration_threshold s)
     (cards_dealt s ++ [card])
     (running_count s + Card.hi_lo_value card).

Definition shuffle (s : t) : t :=
  mk (num_decks s) (penetration_threshold s) [] 0.

(** The two mutators, as the events an orchestrator sends to a shoe. *)
Inductive op : Type :=
  | Deal (card : Card.t)
  | Shuffle.

Definition step (s : t) (o : op) : t :=
  match o with
  | Deal card => deal_card s card
  | Shuffle => shuffle s
  end.

Definition run (s : t) (ops : list op) : t := fold_left step ops s.

(** The sum of the counting values of a list of cards. *)
Definition count_of (cs : list Card.t) : Z :=
  foldr Z.add 0 (map Card.hi_lo_value cs).

(** The invariant kept by every mutation path. *)
Definition count_consistent (s : t) : Prop :=
  running_count s = count_of (cards_dealt s).

(** The cards dealt after the last [Shuffle] of a sequence of events. *)
Fixpoint since_shuffle (acc : list Card.t) (ops : list op) : list Card.t :=
  match ops with
  | [] => acc
  | Deal card :: ops' => since_shuffle (acc ++ [card]) ops'
  | Shuffle :: ops' => since_shuffle [] ops'
  end.

End Shoe.

(** ** core/rules.py *)

Module Rules.

Record t : Type := mk {
  dealer_stands_soft_17 : bool;
  num_decks : Z;
  double_after_split : bool;
  surrender_allowed : bool;
  blackjack_payout : Q;
  max_split_hands : nat;
  split_aces_one_card : bool;
  penetration_threshold : Q
}.

Definition DEFAULT_RULES : t :=
  mk true 6 true false (3 # 2) 4%nat true (3 # 4).

End Rules.

(** ** core/hand.py *)

Module Hand.

Record t : Type := mk { cards : list Card.t }.

#[global] Instance eq_dec : EqDecision t.
Proof. solve_decision. Defined.

Definition add_card (h : t) (card : Card.t) : t := mk (cards h ++ [card]).

Definition is_empty (h : t) : bool := (length (cards h) =? 0)%nat.

(** [len(self.cards) == 2 and cards[0].rank.bj_value == cards[1].rank.bj_value];
    the second operand is only evaluated on a two-card hand. *)
Definition is_pair (h : t) : bool :=
  match cards h with
  | [c0; c1] => Rank.bj_value (Card.rank c0) =? Rank.bj_value (Card.rank c1)
  | _ => false
  end.

Definition pair_rank (h : t) : option Rank.t :=
  if is_pair h then Card.rank <$> head (cards h) else None.

Definition is_ace (card : Card.t) : bool :=
  bool_decide (Card.rank card = Rank.ACE).


(** [sum(1 for card in self.cards if card.rank == Rank.ACE)] *)
Definition ace_count (h : t) : Z :=
  foldr Z.add 0 (map (fun _ => 1) (List.filter is_ace (cards h))).

(** [sum(card.value for card in self.cards if card.rank != Rank.ACE)] *)
Definition non_ace_sum (h : t) : Z :=
  foldr Z.add 0
    (map Card.value (List.filter (fun c => negb (is_ace c)) (cards h))).

Definition _calculate_total (h : t) : Z * bool :=
  match cards h with
  | [] => (0, false)
  | _ =>
      let total := non_ace_sum h in
      let aces := ace_count h in
      if aces =? 0 then (total, false)
      else
        let total := total + aces in
        if total + 10 <=? 21 then (total + 10, true) else (total, false)
  end.

Definition total (h : t) : Z := fst (_calculate_total h).
Definition is_soft (h : t) : bool := snd (_calculate_total h).
Definition is_hard (h : t) : bool := negb (is_soft h).

Definition is_blackjack (h : t) : bool :=
  (length (cards h) =? 2)%nat && (total h =? 21).

Definition is_busted (h : t) : bool := 21 <? total h.

Definition can_double (h : t) : bool := (length (cards h) =? 2)%nat.

Definition can_split (h : t) : bool := is_pair h.

(** [",".join(str(card) for card in self.cards)] *)
Definition card_string (h : t) : string :=
  String.concat "," (map Card.__str__ (cards h)).

End Hand.

Module SplitHands.

Record t : Type := mk {
  hands : list Hand.t;
  current_hand_index : nat;
  completed_hands : gset nat
}.

(** [SplitHands.__init__]: the two cards of the pair seed two hands. *)
Definition init (original_hand : Hand.t) : exn + t :=
  if negb (Hand.can_split original_hand)
  then inl (ValueError "Cannot split non-pair hand")
  else
    match Hand.cards original_hand with
    | c0 :: c1 :: _ => inr (mk [Hand.mk [c0]; Hand.mk [c1]] 0 ∅)
    | _ => inl IndexError
    end.

(** [self.hands[self.current_hand_index]] *)
Definition current_hand (s : t) : exn + Hand.t :=
  match hands s !! current_hand_index s with
  | Some h => inr h
  | None => inl IndexError
  end.

Definition all_hands (s : t) : list Hand.t := hands s.

Definition is_complete (s : t) : bool :=
  (size (completed_hands s) =? length (hands s))%nat.

Definition add_card_to_current (s : t) (card : Card.t) : exn + t :=
  match current_hand s with
  | inr h =>
      inr (mk (<[current_hand_index s := Hand.add_card h card]> (hands s))
              (current_hand_index s) (completed_hands s))
  | inl e => inl e
  end.

(** The loop [for i in range(len(self.hands))] stops at the first [i] that
    is not in the set; when there is none the cursor keeps its value. *)
Definition complete_current_hand (s : t) : t :=
  let completed := {[current_hand_index s]} ∪ completed_hands s in
  match List.find (fun i => bool_decide (i ∉ completed))
                  (seq 0 (length (hands s))) with
  | Some i => mk (hands s) i completed
  | None => mk (hands s) (current_hand_index s) completed
  end.

Definition can_split_current (s : t) : exn + bool :=
  match current_hand s with
  | inr h => inr (Hand.can_split h && (length (hands s) <? 4)%nat)
  | inl e => inl e
  end.

(** [list.insert(i, x)]: [x] goes before position [i], or at the end when
    [i] is past it. *)
Definition list_insert_at {A} (i : nat) (x : A) (l : list A) : list A :=
  take i l ++ x :: drop i l.

Definition split_current (s : t) : exn + t :=
  match can_split_current s with
  | inl e => inl e
  | inr false => inl (ValueError "Cannot split current hand")
  | inr true =>
      match current_hand s with
      | inl e => inl e
      | inr current =>
          if negb (Hand.is_pair current)
          then inl (ValueError "Current hand is not a pair")
          else
            match Hand.cards current with
            | c0 :: c1 :: _ =>
                let new_hand1 := Hand.mk [c0] in
                let new_hand2 := Hand.mk [c1] in
                let hands1 := <[current_hand_index s := new_hand1]> (hands s) in
                inr (mk (list_insert_at (current_hand_index s + 1) new_hand2 hands1)
                        (current_hand_index s) (completed_hands s))
            | _ => inl IndexError
            end
      end
  end.

(** The invariants of the data model: the cursor is a position of the
    list, there are between two and four hands, and only positions of the
    list are marked as finished. *)
Definition wf (s : t) : bool :=
  (current_hand_index s <? length (hands s))%nat
  && (2 <=? length (hands s))%nat
  && (length (hands s) <=? 4)%nat
  && bool_decide (completed_hands s ⊆ set_seq 0 (length (hands s))).

(** The states an orchestrator can build with the public operations. *)
Inductive reachable : t -> Prop :=
  | reach_init original_hand s :
      init original_hand = inr s -> reachable s
  | reach_add s card s' :
      reachable s -> add_card_to_current s card = inr s' -> reachable s'
  | reach_complete s :
      reachable s -> reachable (complete_current_hand s)
  | reach_split s s' :
      reachable s -> split_current s = inr s' -> reachable s'.

End SplitHands.

(** ** strategy/basic_strategy.py *)

Inductive Action : Type := HIT | STAND | DOUBLE | SPLIT.

#[global] Instance Action_eq_dec : EqDecision Action.
Proof. solve_decision. Defined.

Module BasicStrategy.

(** One row of a table, [{2: a2, 3: a3, ..., 11: a11}]: the action against
    each dealer upcard value, 11 standing for the Ace. *)
Definition row (a2 a3 a4 a5 a6 a7 a8 a9 a10 a11 : Action) : gmap Z Action :=
  list_to_map
    [(2, a2); (3, a3); (4, a4); (5, a5); (6, a6);
     (7, a7); (8, a8); (9, a9); (10, a10); (11, a11)].

Definition hard_totals : gmap Z (gmap Z Action) :=
  list_to_map
    [(5, row HIT HIT HIT HIT HIT HIT HIT HIT HIT HIT);
     (6, row HIT HIT HIT HIT HIT HIT HIT HIT HIT HIT);
     (7, row HIT HIT HIT HIT HIT HIT HIT HIT HIT HIT);
     (8, row HIT HIT HIT HIT HIT HIT HIT HIT HIT HIT);
     (9, row HIT DOUBLE DOUBLE DOUBLE DOUBLE HIT HIT HIT HIT HIT);
     (10, row DOUBLE DOUBLE DOUBLE DOUBLE DOUBLE DOUBLE DOUBLE DOUBLE HIT HIT);
     (11, row DOUBLE DOUBLE DOUBLE DOUBLE DOUBLE DOUBLE DOUBLE DOUBLE DOUBLE DOUBLE);
     (12, row HIT HIT STAND STAND STAND HIT HIT HIT HIT HIT);
     (13, row STAND STAND STAND STAND STAND HIT HIT HIT HIT HIT);
     (14, row STAND STAND STAND STAND STAND HIT HIT HIT HIT HIT);
     (15, row STAND STAND STAND STAND STAND HIT HIT HIT HIT HIT);
     (16, row STAND STAND STAND STAND STAND HIT HIT HIT HIT HIT);
     (17, row STAND STAND STAND STAND STAND STAND STAND STAND STAND STAND);
     (18, row STAND STAND STAND STAND STAND STAND STAND STAND STAND STAND);
     (19, row STAND STAND STAND STAND STAND STAND STAND STAND STAND STAND);
     (20, row STAND STAND STAND STAND STAND STAND STAND STAND STAND STAND);
     (21, row STAND STAND STAND STAND STAND STAND STAND STAND STAND STAND)].

Definition soft_totals : gmap Z (gmap Z Action) :=
  list_to_map
    [(13, row HIT HIT HIT DOUBLE DOUBLE HIT HIT HIT HIT HIT);
     (14, row HIT HIT HIT DOUBLE DOUBLE HIT HIT HIT HIT HIT);
     (15, row HIT HIT DOUBLE DOUBLE DOUBLE HIT HIT HIT HIT HIT);
     (16, row HIT HIT DOUBLE DOUBLE DOUBLE HIT HIT HIT HIT HIT);
     (17, row HIT DOUBLE DOUBLE DOUBLE DOUBLE HIT HIT HIT HIT HIT);
     (18, row STAND DOUBLE DOUBLE DOUBLE DOUBLE STAND STAND HIT HIT HIT);
     (19, row STAND STAND STAND STAND STAND STAND STAND STAND STAND STAND);
     (20, row STAND STAND STAND STAND STAND STAND STAND STAND STAND STAND);
     (21, row STAND STAND STAND STAND STAND STAND STAND STAND STAND STAND)].

Definition pairs : gmap Z (gmap Z Action) :=
  list_to_map
    [(2, row HIT HIT SPLIT SPLIT SPLIT SPLIT HIT HIT HIT HIT);
     (3, row HIT HIT SPLIT SPLIT SPLIT SPLIT HIT HIT HIT HIT);
     (4, row HIT HIT HIT SPLIT SPLIT HIT HIT HIT HIT HIT);
     (5, row DOUBLE DOUBLE DOUBLE DOUBLE DOUBLE DOUBLE DOUBLE DOUBLE HIT HIT);
     (6, row HIT SPLIT SPLIT SPLIT SPLIT HIT HIT HIT HIT HIT);
     (7, row SPLIT SPLIT SPLIT SPLIT SPLIT SPLIT HIT HIT HIT HIT);
     (8, row SPLIT SPLIT SPLIT SPLIT SPLIT SPLIT SPLIT SPLIT SPLIT SPLIT);
     (9, row SPLIT SPLIT SPLIT SPLIT SPLIT STAND SPLIT SPLIT STAND STAND);
     (10, row STAND STAND STAND STAND STAND STAND STAND STAND STAND STAND);
     (11, row SPLIT SPLIT SPLIT SPLIT SPLIT SPLIT SPLIT SPLIT SPLIT SPLIT)].

(** [table[key].get(dealer_upcard_value, Action.HIT)] when [key in table];
    [None] when the key is missing and control falls through. *)
Definition lookup (table : gmap Z (gmap Z Action)) (key dealer_upcard_value : Z)
  : option Action :=
  match table !! key with
  | Some r => Some (default HIT (r !! dealer_upcard_value))
  | None => None
  end.

(** [if action == Action.DOUBLE and not can_double: return Action.HIT] *)
Definition convert_double (action : Action) (can_double : bool) : Action :=
  if bool_decide (action = DOUBLE) && negb can_double then HIT else action.

(** The pair block: it returns the table entry as it is.  The two
    assignments [pair_value = 11] and [pair_value = 10] of the source leave
    the value as it was. *)
Definition pair_block (hand : Hand.t) (dealer_upcard_value : Z) : option Action :=
  if Hand.is_pair hand then
    match Hand.pair_rank hand with
    | Some r =>
        let pair_value := Rank.bj_value r in
        let pair_value :=
          if pair_value =? 11 then 11
          else if pair_value =? 10 then 10
          else pair_value in
        lookup pairs pair_value dealer_upcard_value
    | None => None
    end
  else None.

Definition soft_block (hand : Hand.t) (dealer_upcard_value : Z) (can_double : bool)
  : option Action :=
  if Hand.is_soft hand then
    let total := Hand.total hand in
    match lookup soft_totals total dealer_upcard_value with
    | Some action => Some (convert_double action can_double)
    | None => None
    end
  else None.

Definition hard_block (hand : Hand.t) (dealer_upcard_value : Z) (can_double : bool)
  : Action :=
  let total := Hand.total hand in
  match lookup hard_totals total dealer_upcard_value with
  | Some action => convert_double action can_double
  | None => if total <? 5 then HIT else HIT
  end.

Definition get_action (hand : Hand.t) (dealer_upcard_value : Z) (can_double : bool)
  : Action :=
  if Hand.is_busted hand then STAND
  else if Hand.is_blackjack hand then STAND
  else
    match pair_block hand dealer_upcard_value with
    | Some action => action
    | None =>
        match soft_block hand dealer_upcard_value can_double with
        | Some action => action
        | None => hard_block hand dealer_upcard_value can_double
        end
    end.

Definition should_take_insurance (dealer_shows_ace : bool) : bool := false.

End BasicStrategy.

(** ** strategy/index_plays.py *)

Module IndexPlay.

Record t : Type := mk {
  name : string;
  description : string;
  player_total : Z;
  dealer_upcard : Z;
  is_soft : bool;
  is_pair : bool;
  true_count_threshold : Q;
  basic_action : Action;
  index_action : Action
}.

(** [a >= b] and [a <= b] on true counts. *)
Definition ge (a b : Q) : bool := Qle_bool b a.
Definition le (a b : Q) : bool := Qle_bool a b.

Definition applies (self : t) (hand : Hand.t) (dealer_upcard_value : Z)
    (true_count : Q) : bool :=
  if negb (Hand.total hand =? player_total self) then false
  else if negb (dealer_upcard_value =? dealer_upcard self) then false
  else if is_soft self && negb (Hand.is_soft hand) then false
  else if negb (is_soft self) && Hand.is_soft hand then false
  else if is_pair self && negb (Hand.is_pair hand) then false
  else if negb (is_pair self) && Hand.is_pair hand then false
  else if ge (true_count_threshold self) 0
       then ge true_count (true_count_threshold self)
       else le true_count (true_count_threshold self).

Definition get_action (self : t) (true_count : Q) : Action :=
  if ge (true_count_threshold self) 0 then
    if ge true_count (true_count_threshold self) then index_action self
    else basic_action self
  else
    if le true_count (true_count_threshold self) then index_action self
    else basic_action self.

End IndexPlay.

Module IndexPlays.

Import IndexPlay.

Definition plays : list IndexPlay.t :=
  [
    mk "16 vs 10" "Stand 16 vs 10 at TC ≥ 0"
       16 10 false false 0 HIT STAND;
    mk "15 vs 10" "Stand 15 vs 10 at TC ≥ +4"
       15 10 false false 4 HIT STAND;
    mk "10 vs 10" "Double 10 vs 10 at TC ≥ +4"
       10 10 false false 4 HIT DOUBLE;
    mk "12 vs 3" "Stand 12 vs 3 at TC ≥ +2"
       12 3 false false 2 HIT STAND;
    mk "12 vs 2" "Stand 12 vs 2 at TC ≥ +3"
       12 2 false false 3 HIT STAND;
    mk "11 vs A" "Double 11 vs A at TC ≥ +1"
       11 11 false false 1 HIT DOUBLE;
    mk "9 vs 2" "Double 9 vs 2 at TC ≥ +1"
       9 2 false false 1 HIT DOUBLE;
    mk "10 vs A" "Double 10 vs A at TC ≥ +4"
       10 11 false false 4 HIT DOUBLE;
    mk "9 vs 7" "Double 9 vs 7 at TC ≥ +3"
       9 7 false false 3 HIT DOUBLE;
    mk "16 vs 9" "Stand 16 vs 9 at TC ≥ +5"
       16 9 false false 5 HIT STAND;
    mk "13 vs 2 (negative)" "Hit 13 vs 2 at TC ≤ -1"
       13 2 false false (-1) STAND HIT;
    mk "12 vs 4 (negative)" "Hit 12 vs 4 at TC ≤ 0"
       12 4 false false 0 STAND HIT;
    mk "12 vs 5 (negative)" "Hit 12 vs 5 at TC ≤ -2"
       12 5 false false (-2) STAND HIT;
    mk "12 vs 6 (negative)" "Hit 12 vs 6 at TC ≤ -1"
       12 6 false false (-1) STAND HIT;
    mk "13 vs 3 (negative)" "Hit 13 vs 3 at TC ≤ -2"
       13 3 false false (-2) STAND HIT;
    mk "20 vs 5 (split)" "Split 10,10 vs 5 at TC ≥ +5"
       20 5 false true 5 STAND SPLIT;
    mk "20 vs 6 (split)" "Split 10,10 vs 6 at TC ≥ +4"
       20 6 false true 4 STAND SPLIT;
    mk "AA vs A (negative)" "Stand A,A vs A at TC ≤ -1"
       12 11 true true (-1) SPLIT STAND;
    mk "8 vs 6" "Double 8 vs 6 at TC ≥ +2"
       8 6 false false 2 HIT DOUBLE;
    mk "15 vs A" "Stand 15 vs A at TC ≥ +5"
       15 11 false false 5 HIT STAND;
    mk "14 vs 10" "Stand 14 vs 10 at TC ≥ +3"
       14 10 false false 3 HIT STAND;
    mk "A,6 vs 2" "Double A,6 vs 2 at TC ≥ +1"
       17 2 true false 1 HIT DOUBLE;
    mk "A,5 vs 4" "Double A,5 vs 4 at TC ≥ +2"
       16 4 true false 2 HIT DOUBLE;
    mk "13 vs 4 (negative)" "Hit 13 vs 4 at TC ≤ -1"
       13 4 false false (-1) STAND HIT
  ].

Definition insurance_threshold : Q := 3.

Definition get_applicable_plays (hand : Hand.t) (dealer_upcard_value : Z)
    (true_count : Q) : list IndexPlay.t :=
  List.filter (fun play => applies play hand dealer_upcard_value true_count) plays.

Definition get_index_action (hand : Hand.t) (dealer_upcard_value : Z)
    (true_count : Q) (basic_action : Action) : Action * option IndexPlay.t :=
  match get_applicable_plays hand dealer_upcard_value true_count with
  | play :: _ => (IndexPlay.get_action play true_count, Some play)
  | [] => (basic_action, None)
  end.

Definition should_take_insurance (true_count : Q) : bool :=
  ge true_count insurance_threshold.

End IndexPlays.

(** ** strategy/advisor.py *)

Module Advisor.

(** The dictionary returned by [get_advice], without the two entries that
    are display text ([count_display], [reasoning]). *)
Record advice : Type := mk_advice {
  action : Action;
  basic_strategy : Action;
  count_influenced : bool;
  true_count : Q;
  deviation : option string
}.

Definition get_advice (hand : Hand.t) (dealer_upcard_value : Z) (true_count : Q)
    (can_double can_split : bool) : advice :=
  let basic_advice := BasicStrategy.get_action hand dealer_upcard_value can_double in
  let '(final_action, index_play) :=
    IndexPlays.get_index_action hand dealer_upcard_value true_count basic_advice in
  let count_influenced := bool_decide (is_Some index_play) in
  let deviation_reason := IndexPlay.name <$> index_play in
  let '(final_action, deviation_reason) :=
    if negb can_double && bool_decide (final_action = DOUBLE)
    then (HIT,
          (fun r => r ++ " (hit instead of double - can't double)")%string
            <$> deviation_reason)
    else (final_action, deviation_reason) in
  let '(final_action, deviation_reason) :=
    if negb (can_split && Hand.is_pair hand) && bool_decide (final_action = SPLIT)
    then ((if 17 <=? Hand.total hand then STAND else HIT),
          (fun r => r ++ " (can't split - using backup action)")%string
            <$> deviation_reason)
    else (final_action, deviation_reason) in
  mk_advice final_action basic_advice count_influenced true_count deviation_reason.

(** The dictionary returned by [get_insurance_advice], without [reasoning]. *)
Record insurance_advice : Type := mk_insurance_advice {
  take_insurance : bool;
  ins_true_count : Q;
  threshold : Q
}.

Definition get_insurance_advice (true_count : Q) : insurance_advice :=
  let should_take := IndexPlay.ge true_count IndexPlays.insurance_threshold in
  mk_insurance_advice should_take true_count IndexPlays.insurance_threshold.

End Advisor.

(** ** Reference definitions

    Definitions that follow the words of the specification, to be compared
    with the ones above, and the constants used in the statements. *)

Module Spec.

(** Hand total, section 4.2 and section 8: the formula for a non-Ace sum
    [s] and [k] Aces. *)
Definition total_soft_spec (s k : Z) : Z * bool :=
  if s + k + 10 <=? 21 then (s + k + 10, true) else (s + k, false).

(** Strategy lookup, section 4.4: the entry of a table for a key and a
    dealer upcard, Hit when there is none. *)
Definition table_entry (table : gmap Z (gmap Z Action)) (key d : Z) : Action :=
  default HIT (table !! key ≫= fun r => r !! d).

(** Strategy lookup, section 4.4, steps 1 to 5: Stand on a busted hand or a
    blackjack; otherwise the pair table for a pair, else the soft table
    for a soft hand, else the hard table; and a Double that cannot be
    played becomes Hit, whichever table it came from. *)
Definition strategy_lookup (hand : Hand.t) (d : Z) (can_double : bool) : Action :=
  if Hand.is_busted hand || Hand.is_blackjack hand then STAND
  else
    let looked_up :=
      if Hand.is_pair hand then
        match Hand.pair_rank hand with
        | Some r => table_entry BasicStrategy.pairs (Rank.bj_value r) d
        | None => HIT
        end
      else if Hand.is_soft hand
      then table_entry BasicStrategy.soft_totals (Hand.total hand) d
      else table_entry BasicStrategy.hard_totals (Hand.total hand) d in
    if bool_decide (looked_up = DOUBLE) && negb can_double then HIT
    else looked_up.

(** Split precondition, section 4.3: the hand at the cursor is itself a
    pair and there are fewer hands than the [max_split_hands] of the rules
    of the session. *)
Definition can_split_current (rules : Rules.t) (s : SplitHands.t) : bool :=
  match SplitHands.hands s !! SplitHands.current_hand_index s with
  | Some current =>
      Hand.is_pair current
      && (length (SplitHands.hands s) <? Rules.max_split_hands rules)%nat
  | None => false
  end.

End Spec.

(** The Python float literals of the boundary tests that are not integers:
    the doubles nearest to 2.9 and to -0.1, as exact rationals. *)
Module PyFloat.

Definition f_2_9 : Q := 6530219459687219 # 2251799813685248.
Definition f_minus_0_1 : Q := - (3602879701896397 # 36028797018963968).

End PyFloat.

(** Quantities used in the statements below. *)
Module Derived.




End Derived.

(** * Properties *)

(** ** Shoe: the running count follows the dealt log *)

Section ShoeCount.

Import Shoe.

Lemma count_of_app (cs ds : list Card.t) :
  count_of (cs ++ ds) = count_of cs + count_of ds.
Proof.
  unfold count_of. induction cs as [|c cs IH]; simpl; [reflexivity|].
  rewrite IH. lia.
Qed.

Lemma init_consistent nd pt : count_consistent (init nd pt).
Proof. reflexivity. Qed.

Lemma deal_card_consistent s card :
  count_consistent s -> count_consistent (deal_card s card).
Proof.
  unfold count_consistent, deal_card; simpl. intros ->.
  rewrite count_of_app. unfold count_of at 3; simpl. lia.
Qed.

Lemma shuffle_consistent s : count_consistent (shuffle s).
Proof. reflexivity. Qed.

Lemma step_consistent s o : count_consistent s -> count_consistent (step s o).
Proof.
  destruct o as [card|]; simpl; intros Hs.
  - now apply deal_card_consistent.
  - apply shuffle_consistent.
Qed.

Lemma run_consistent ops : forall s, count_consistent s -> count_consistent (run s ops).
Proof.
  unfold run. induction ops as [|o ops IH]; simpl; intros s Hs; [exact Hs|].
  apply IH, step_consistent, Hs.
Qed.

Lemma run_cards_dealt ops : forall s,
  cards_dealt (run s ops) = since_shuffle (cards_dealt s) ops.
Proof.
  unfold run. induction ops as [|[card|] ops IH]; simpl; intros s;
    [reflexivity | rewrite IH; reflexivity | rewrite IH; reflexivity].
Qed.

Lemma hi_lo_values (r : Rank.t) :
  Rank.hi_lo_value r =
    if bool_decide (r ∈ [Rank.TWO; Rank.THREE; Rank.FOUR; Rank.FIVE; Rank.SIX]) then 1
    else if bool_decide (r ∈ [Rank.SEVEN; Rank.EIGHT; Rank.NINE]) then 0
    else -1.
Proof. destruct r; reflexivity. Qed.

(** C7.  Whatever sequence of [deal_card] and [shuffle] a fresh shoe goes
    through, [running_count] is the sum of the Hi-Lo values of the cards in
    the dealt log (the cards dealt since the last shuffle), where a card
    counts +1 for the ranks 2 to 6, 0 for 7 to 9 and -1 for T, J, Q, K, A;
    and a shuffle of that shoe sets [running_count] to 0 and empties the
    log. *)
Theorem running_count_is_sum_of_dealt_log (nd : Z) (pt : Q) (ops : list op) :
  let s := run (init nd pt) ops in
  running_count s = count_of (cards_dealt s)
  /\ cards_dealt s = since_shuffle [] ops
  /\ (forall card, Card.hi_lo_value card =
        if bool_decide (Card.rank card ∈
             [Rank.TWO; Rank.THREE; Rank.FOUR; Rank.FIVE; Rank.SIX]) then 1
        else if bool_decide (Card.rank card ∈
             [Rank.SEVEN; Rank.EIGHT; Rank.NINE]) then 0
        else -1)
  /\ running_count (shuffle s) = 0
  /\ cards_dealt (shuffle s) = [].
Proof.
  intros s. split; [|split; [|split; [|split]]].
  - apply (run_consistent ops), init_consistent.
  - subst s. now rewrite run_cards_dealt.
  - intros card. apply hi_lo_values.
  - reflexivity.
  - reflexivity.
Qed.

Example shoe_count_example :
  let s := run (init 6 (3 # 4))
             [Deal (Card.mk Rank.TWO); Deal (Card.mk Rank.KING);
              Shuffle; Deal (Card.mk Rank.FIVE); Deal (Card.mk Rank.SIX);
              Deal (Card.mk Rank.NINE)] in
  running_count s = 2
  /\ cards_dealt s = [Card.mk Rank.FIVE; Card.mk Rank.SIX; Card.mk Rank.NINE].
Proof. split; reflexivity. Qed.

End ShoeCount.

(** ** Hand: total and softness *)

Section HandTotal.

Import Hand Spec.

Lemma ace_count_nonneg h : 0 <= ace_count h.
Proof.
  unfold ace_count. induction (List.filter is_ace (cards h)) as [|c l IH];
    simpl; lia.
Qed.

Lemma ace_count_nil : ace_count (mk []) = 0.
Proof. reflexivity. Qed.

Lemma calculate_total_unfold h :
  _calculate_total h =
    if ace_count h =? 0 then (non_ace_sum h, false)
    else total_soft_spec (non_ace_sum h) (ace_count h).
Proof.
  unfold _calculate_total, total_soft_spec. destruct h as [[|c cs]].
  - reflexivity.
  - cbv zeta. reflexivity.
Qed.


(** C1, as the code has it.  With [s] the sum of the values of the cards
    that are not Aces and [k] the number of Aces, the hand is soft exactly
    when [k >= 1] and [s + k + 10 <= 21], and then its total is
    [s + k + 10]; otherwise the hand is hard and its total is [s + k] (so a
    hand without an Ace is never soft).  The empty hand has total 0 and is
    not soft. *)
Theorem total_and_softness (h : Hand.t) :
  let s := non_ace_sum h in
  let k := ace_count h in
  (is_soft h = true <-> 1 <= k /\ s + k + 10 <= 21)
  /\ total h = (if is_soft h then s + k + 10 else s + k)
  /\ total (mk []) = 0
  /\ is_soft (mk []) = false.
Proof.
  intros s k. unfold total, is_soft. rewrite calculate_total_unfold.
  fold s k. pose proof (ace_count_nonneg h) as Hk. fold k in Hk.
  unfold total_soft_spec.
  destruct (Z.eqb_spec k 0) as [Hk0|Hk0]; simpl.
  - repeat split; try (intros; lia); try discriminate. 
  - destruct (Z.leb_spec (s + k + 10) 21); simpl;
      repeat split; try (intros; lia); try discriminate.
Qed.

(** The formula of the specification read on a hand without an Ace: 5 and
    3 make a hard 8, where the formula announces a soft 18. *)
Lemma total_formula_fails_without_ace :
  let h := mk [Card.mk Rank.FIVE; Card.mk Rank.THREE] in
  _calculate_total h <> total_soft_spec (non_ace_sum h) (ace_count h).
Proof. vm_compute. discriminate. Qed.

Example total_examples :
  _calculate_total (mk [Card.mk Rank.ACE; Card.mk Rank.SEVEN]) = (18, true)
  /\ _calculate_total
       (mk [Card.mk Rank.ACE; Card.mk Rank.FIVE; Card.mk Rank.SEVEN]) = (13, false)
  /\ _calculate_total
       (mk [Card.mk Rank.SEVEN; Card.mk Rank.SEVEN; Card.mk Rank.SEVEN]) = (21, false)
  /\ _calculate_total (mk [Card.mk Rank.FIVE; Card.mk Rank.THREE]) = (8, false).
Proof. repeat split. Qed.

End HandTotal.

(** ** Card text: [Rank.from_string] and [Card.from_string] *)

Section RankParsing.

Import Rank.

Lemma symbol_inj r1 r2 : symbol r1 = symbol r2 -> r1 = r2.
Proof. destruct r1, r2; intros H; try reflexivity; discriminate H. Qed.

Lemma members_complete r : In r members.
Proof. destruct r; simpl; tauto. Qed.

Lemma symbol_length r : String.length (symbol r) = 1%nat.
Proof. destruct r; reflexivity. Qed.

Lemma find_symbol_Some x r :
  List.find (fun rank => String.eqb (symbol rank) x) members = Some r
  <-> symbol r = x.
Proof.
  split.
  - intros H. apply find_some in H as [_ H]. now apply String.eqb_eq in H.
  - intros <-. destruct r; reflexivity.
Qed.

Lemma find_symbol_None x :
  List.find (fun rank => String.eqb (symbol rank) x) members = None
  <-> forall r, symbol r <> x.
Proof.
  split.
  - intros H r Hr. apply find_none with (x := r) in H; [|apply members_complete].
    simpl in H. rewrite Hr, String.eqb_refl in H. discriminate.
  - intros H. destruct (List.find _ members) as [r|] eqn:E; [|reflexivity].
    apply find_symbol_Some in E. now apply H in E.
Qed.

Lemma from_string_inr s r : from_string s = inr r <-> symbol r = normalize s.
Proof.
  unfold from_string. cbv zeta.
  destruct (List.find _ members) as [r'|] eqn:E.
  - apply find_symbol_Some in E. split.
    + intros [= <-]. exact E.
    + intros H. f_equal. apply symbol_inj. congruence.
  - split; [discriminate|]. intros H.
    rewrite find_symbol_None in E. now apply E in H.
Qed.

Lemma from_string_inl s e :
  from_string s = inl e <->
  e = ValueError ("Invalid rank: " ++ normalize s) /\ forall r, symbol r <> normalize s.
Proof.
  unfold from_string. cbv zeta.
  destruct (List.find _ members) as [r'|] eqn:E.
  - apply find_symbol_Some in E. split; [discriminate|].
    intros [_ H]. now apply H in E.
  - rewrite find_symbol_None in E. split.
    + intros [= <-]. split; [reflexivity | exact E].
    + intros [-> _]. reflexivity.
Qed.

Lemma upper_length s : String.length (Str.upper s) = String.length s.
Proof. induction s as [|c s IH]; simpl; congruence. Qed.

Lemma upper_app s1 s2 : Str.upper (s1 ++ s2) = (Str.upper s1 ++ Str.upper s2)%string.
Proof.
  induction s1 as [|c s1 IH]; simpl; [reflexivity | now rewrite IH].
Qed.

Lemma string_length_app s1 s2 :
  String.length (s1 ++ s2) = (String.length s1 + String.length s2)%nat.
Proof.
  induction s1 as [|c s1 IH]; simpl; [reflexivity | now rewrite IH].
Qed.

Lemma upper_symbol r : Str.upper (symbol r) = symbol r.
Proof. destruct r; reflexivity. Qed.

Lemma normalize_cases s :
  (Str.upper s = "10"%string /\ normalize s = "T"%string)
  \/ (Str.upper s <> "10"%string /\ normalize s = Str.upper s).
Proof.
  unfold normalize. cbv zeta.
  destruct (String.eqb_spec (Str.upper s) "10"); [left | right]; split; auto.
Qed.

(** C9, as the code has it.  [Card.from_string] returns the card of rank
    [r] exactly when the upper-cased text is the symbol of [r], or is "10"
    and [r] is the ten; it raises [ValueError] exactly when the normalised
    text is the symbol of no rank, and raises nothing else.  Nothing may
    follow the rank: a rank symbol followed by any further character, a
    suit letter included, is rejected. *)
Theorem card_from_string_accepts (card_str : string) :
  (forall r, Card.from_string card_str = inr (Card.mk r)
     <-> Str.upper card_str = symbol r
         \/ (Str.upper card_str = "10"%string /\ r = TEN))
  /\ (forall e, Card.from_string card_str = inl e
     <-> e = ValueError ("Invalid rank: " ++ normalize card_str)
         /\ forall r, symbol r <> normalize card_str)
  /\ (forall r c rest, exists msg,
       Card.from_string (symbol r ++ String c rest) = inl (ValueError msg)).
Proof.
  split; [|split].
  - intros r. unfold Card.from_string.
    destruct (from_string card_str) as [e|r'] eqn:E.
    + split; [discriminate|]. intros H. exfalso.
      apply from_string_inl in E as [_ E]. apply (E r).
      destruct (normalize_cases card_str) as [[Hu ->]|[Hu ->]];
        destruct H as [H|[H ->]]; try congruence; try reflexivity.
      rewrite Hu in H. destruct r; discriminate H.
    + apply from_string_inr in E. split.
      * intros [= <-].
        destruct (normalize_cases card_str) as [[Hu Hn]|[Hu Hn]];
          rewrite Hn in E.
        -- right. split; [exact Hu|]. destruct r'; try discriminate E; reflexivity.
        -- left. congruence.
      * intros H. f_equal. f_equal. apply symbol_inj. rewrite E.
        destruct (normalize_cases card_str) as [[Hu ->]|[Hu ->]];
          destruct H as [H|[H ->]]; try congruence; try reflexivity.
        rewrite Hu in H. destruct r; discriminate H.
  - intros e. unfold Card.from_string.
    destruct (from_string card_str) as [e'|r'] eqn:E.
    + rewrite <- from_string_inl, E. split; congruence.
    + split; [discriminate|]. intros [_ H].
      apply from_string_inr in E. now apply H in E.
  - intros r c rest. unfold Card.from_string.
    destruct (from_string (symbol r ++ String c rest)) as [e|r'] eqn:E.
    + apply from_string_inl in E as [-> _]. eauto.
    + exfalso. apply from_string_inr in E.
      apply (f_equal String.length) in E. rewrite symbol_length in E.
      destruct (normalize_cases (symbol r ++ String c rest)) as [[Hu Hn]|[Hu Hn]].
      * rewrite upper_app, upper_symbol in Hu. destruct r; discriminate Hu.
      * rewrite Hn, upper_length, string_length_app, symbol_length in E.
        simpl in E. lia.
Qed.

(** A rank with a trailing suit letter is not accepted. *)
Lemma card_from_string_rejects_suit :
  Card.from_string "AS" = inl (ValueError "Invalid rank: AS")
  /\ Card.from_string "AS" <> inr (Card.mk ACE).
Proof. split; [reflexivity | discriminate]. Qed.

Example from_string_examples :
  from_string "10" = inr TEN /\ from_string "t" = inr TEN
  /\ from_string "k" = inr KING /\ from_string "A" = inr ACE
  /\ from_string "7" = inr SEVEN
  /\ from_string "1" = inl (ValueError "Invalid rank: 1")
  /\ from_string "" = inl (ValueError "Invalid rank: ")
  /\ from_string "kh" = inl (ValueError "Invalid rank: KH").
Proof. repeat split. Qed.

End RankParsing.

(** ** Insurance *)

Section Insurance.

(** C8.  Insurance is recommended exactly when the true count is at least
    the threshold 3: [IndexPlays.should_take_insurance] and the
    [take_insurance] entry of [Advisor.get_insurance_advice] agree on it,
    they say take at 3.0 and skip at 2.9. *)
Theorem insurance_iff_threshold (true_count : Q) :
  (IndexPlays.should_take_insurance true_count = true <-> (3 <= true_count)%Q)
  /\ Advisor.take_insurance (Advisor.get_insurance_advice true_count)
     = IndexPlays.should_take_insurance true_count
  /\ Advisor.threshold (Advisor.get_insurance_advice true_count) = 3%Q
  /\ IndexPlays.insurance_threshold = 3%Q
  /\ IndexPlays.should_take_insurance 3 = true
  /\ Advisor.take_insurance (Advisor.get_insurance_advice 3) = true
  /\ IndexPlays.should_take_insurance PyFloat.f_2_9 = false
  /\ Advisor.take_insurance (Advisor.get_insurance_advice PyFloat.f_2_9) = false
  /\ IndexPlays.should_take_insurance 2.9 = false.
Proof.
  split; [|repeat split].
  unfold IndexPlays.should_take_insurance, IndexPlay.ge,
    IndexPlays.insurance_threshold.
  apply Qle_bool_iff.
Qed.

End Insurance.

(** ** Index plays *)

Section IndexPlayRules.

Lemma ge_true a b : IndexPlay.ge a b = true <-> (b <= a)%Q.
Proof. unfold IndexPlay.ge. apply Qle_bool_iff. Qed.

Lemma le_true a b : IndexPlay.le a b = true <-> (a <= b)%Q.
Proof. unfold IndexPlay.le. apply Qle_bool_iff. Qed.

Lemma ge_false a b : IndexPlay.ge a b = false <-> (a < b)%Q.
Proof.
  split; intros H.
  - apply Qnot_le_lt. intros Hle. apply ge_true in Hle. congruence.
  - destruct (IndexPlay.ge a b) eqn:E; [|reflexivity].
    apply ge_true in E. exfalso. exact (Qlt_not_le _ _ H E).
Qed.

Lemma bool_eq_cases (a b : bool) :
  (a && negb b = false) /\ (negb a && b = false) <-> b = a.
Proof. destruct a, b; simpl; intuition congruence. Qed.

(** What [applies] tests, one condition after the other. *)
Lemma applies_true (rule : IndexPlay.t) (hand : Hand.t) (d : Z) (tc : Q) :
  IndexPlay.applies rule hand d tc = true <->
    Hand.total hand = IndexPlay.player_total rule
    /\ d = IndexPlay.dealer_upcard rule
    /\ Hand.is_soft hand = IndexPlay.is_soft rule
    /\ Hand.is_pair hand = IndexPlay.is_pair rule
    /\ (if IndexPlay.ge (IndexPlay.true_count_threshold rule) 0
        then IndexPlay.ge tc (IndexPlay.true_count_threshold rule)
        else IndexPlay.le tc (IndexPlay.true_count_threshold rule)) = true.
Proof.
  unfold IndexPlay.applies.
  destruct (Z.eqb_spec (Hand.total hand) (IndexPlay.player_total rule)) as [Ht|Ht];
    simpl; [|split; [discriminate | tauto]].
  destruct (Z.eqb_spec d (IndexPlay.dealer_upcard rule)) as [Hd|Hd];
    simpl; [|split; [discriminate | tauto]].
  destruct (IndexPlay.is_soft rule), (Hand.is_soft hand); simpl;
    try (split; [discriminate | intros (_ & _ & ? & _); discriminate]);
    destruct (IndexPlay.is_pair rule), (Hand.is_pair hand); simpl;
    try (split; [discriminate | intros (_ & _ & _ & ? & _); discriminate]);
    tauto.
Qed.

End IndexPlayRules.

(** ** The deviation engine on two situations: hard 16 against 10, hard 12
    against 4 *)

Section Deviations.

(** Evaluates the scan of the rule list once the three hand properties it
    reads are known; the comparisons with the true count stay symbolic. *)
Ltac scan_plays Ht Hs Hp tc :=
  unfold IndexPlays.get_applicable_plays, IndexPlays.plays, IndexPlay.applies;
  rewrite Ht, Hs, Hp;
  set (g := IndexPlay.ge tc); set (l := IndexPlay.le tc);
  cbn; change (IndexPlay.ge 0 0) with true; cbv iota; subst g l.

Lemma applicable_hard_16_vs_10 hand tc :
  Hand.total hand = 16 -> Hand.is_soft hand = false -> Hand.is_pair hand = false ->
  exists rule,
    nth_error IndexPlays.plays 0 = Some rule
    /\ IndexPlays.get_applicable_plays hand 10 tc
       = if IndexPlay.ge tc 0 then [rule] else [].
Proof.
  intros Ht Hs Hp. eexists. split; [reflexivity|].
  scan_plays Ht Hs Hp tc. reflexivity.
Qed.

Lemma applicable_hard_12_vs_4 hand tc :
  Hand.total hand = 12 -> Hand.is_soft hand = false -> Hand.is_pair hand = false ->
  exists rule,
    nth_error IndexPlays.plays 11 = Some rule
    /\ IndexPlays.get_applicable_plays hand 4 tc
       = if IndexPlay.ge tc 0 then [rule] else [].
Proof.
  intros Ht Hs Hp. eexists. split; [reflexivity|].
  scan_plays Ht Hs Hp tc. reflexivity.
Qed.

(** Below 21, a hand that is neither a pair nor soft is read in the table
    of hard totals. *)
Lemma get_action_hard hand d cd :
  Hand.total hand < 21 -> Hand.is_soft hand = false -> Hand.is_pair hand = false ->
  BasicStrategy.get_action hand d cd = BasicStrategy.hard_block hand d cd.
Proof.
  intros Ht Hs Hp.
  unfold BasicStrategy.get_action, BasicStrategy.pair_block,
    BasicStrategy.soft_block, Hand.is_busted, Hand.is_blackjack.
  rewrite Hs, Hp.
  destruct (Z.ltb_spec 21 (Hand.total hand)); [lia|].
  destruct (Z.eqb_spec (Hand.total hand) 21); [lia|].
  now rewrite andb_false_r.
Qed.

Lemma get_action_hard_16_vs_10 hand cd :
  Hand.total hand = 16 -> Hand.is_soft hand = false -> Hand.is_pair hand = false ->
  BasicStrategy.get_action hand 10 cd = HIT.
Proof.
  intros Ht Hs Hp. rewrite get_action_hard by (auto; lia).
  unfold BasicStrategy.hard_block. rewrite Ht. reflexivity.
Qed.

Lemma get_action_hard_12_vs_4 hand cd :
  Hand.total hand = 12 -> Hand.is_soft hand = false -> Hand.is_pair hand = false ->
  BasicStrategy.get_action hand 4 cd = STAND.
Proof.
  intros Ht Hs Hp. rewrite get_action_hard by (auto; lia).
  unfold BasicStrategy.hard_block. rewrite Ht. reflexivity.
Qed.

(** C3.  A rule applies exactly when the hand total, the dealer upcard,
    the softness and the pair flag are the rule's and the true count
    passes the test chosen by the sign of the threshold: at least the
    threshold when it is not negative, at most the threshold when it is.
    On a hard 16 that is not a pair, against a dealer 10 and with basic
    action Hit, the engine answers Stand at a true count of 0.0 and Hit at
    -0.1, and so does the advisor. *)
Theorem applies_iff_and_16_vs_10
    (rule : IndexPlay.t) (hand : Hand.t) (d : Z) (tc : Q)
    (h16 : Hand.t) (Ht : Hand.total h16 = 16)
    (Hs : Hand.is_soft h16 = false) (Hp : Hand.is_pair h16 = false) :
  (IndexPlay.applies rule hand d tc = true <->
     Hand.total hand = IndexPlay.player_total rule
     /\ d = IndexPlay.dealer_upcard rule
     /\ Hand.is_soft hand = IndexPlay.is_soft rule
     /\ Hand.is_pair hand = IndexPlay.is_pair rule
     /\ ((0 <= IndexPlay.true_count_threshold rule)%Q ->
         (IndexPlay.true_count_threshold rule <= tc)%Q)
     /\ ((IndexPlay.true_count_threshold rule < 0)%Q ->
         (tc <= IndexPlay.true_count_threshold rule)%Q))
  /\ fst (IndexPlays.get_index_action h16 10 0 HIT) = STAND
  /\ fst (IndexPlays.get_index_action h16 10 PyFloat.f_minus_0_1 HIT) = HIT
  /\ fst (IndexPlays.get_index_action h16 10 (-0.1) HIT) = HIT
  /\ (forall cd cs,
        Advisor.action (Advisor.get_advice h16 10 0 cd cs) = STAND
        /\ Advisor.action (Advisor.get_advice h16 10 PyFloat.f_minus_0_1 cd cs) = HIT).
Proof.
  split.
  { rewrite applies_true.
    destruct (IndexPlay.ge (IndexPlay.true_count_threshold rule) 0) eqn:E.
    - rewrite ge_true. apply ge_true in E.
      assert (Hn : ~ (IndexPlay.true_count_threshold rule < 0)%Q)
        by (intros Hneg; exact (Qlt_not_le _ _ Hneg E)).
      tauto.
    - rewrite le_true. apply ge_false in E.
      assert (Hn : ~ (0 <= IndexPlay.true_count_threshold rule)%Q)
        by (intros Hpos; exact (Qlt_not_le _ _ E Hpos)).
      tauto. }
  assert (Hidx : forall tc' basic,
    IndexPlays.get_index_action h16 10 tc' basic
    = if IndexPlay.ge tc' 0 then (STAND, nth_error IndexPlays.plays 0)
      else (basic, None)).
  { intros tc' basic. unfold IndexPlays.get_index_action.
    destruct (applicable_hard_16_vs_10 h16 tc' Ht Hs Hp) as (r & Hr & ->).
    injection Hr as <-. unfold IndexPlay.get_action.
    destruct (IndexPlay.ge tc' 0) eqn:E; [|reflexivity].
    cbn [IndexPlay.true_count_threshold IndexPlay.index_action].
    change (IndexPlay.ge 0 0) with true. cbv iota. now rewrite E. }
  repeat split.
  - now rewrite Hidx.
  - now rewrite Hidx.
  - now rewrite Hidx.
  - unfold Advisor.get_advice. rewrite Hidx.
    rewrite (get_action_hard_16_vs_10 h16 cd Ht Hs Hp).
    change (IndexPlay.ge 0 0) with true. rewrite Hp.
    destruct cd, cs; reflexivity.
  - unfold Advisor.get_advice. rewrite Hidx.
    rewrite (get_action_hard_16_vs_10 h16 cd Ht Hs Hp).
    change (IndexPlay.ge PyFloat.f_minus_0_1 0) with false. rewrite Hp.
    destruct cd, cs; reflexivity.
Qed.

Lemma applies_iff_and_16_vs_10_witness :
  let h := Hand.mk [Card.mk Rank.TEN; Card.mk Rank.SIX] in
  let rule := IndexPlay.mk "16 vs 10" "Stand 16 vs 10 at TC ≥ 0"
                16 10 false false 0 HIT STAND in
  Hand.total h = 16 /\ Hand.is_soft h = false /\ Hand.is_pair h = false
  /\ IndexPlay.applies rule h 10 0 = true
  /\ fst (IndexPlays.get_index_action h 10 0 HIT) = STAND
  /\ fst (IndexPlays.get_index_action h 10 PyFloat.f_minus_0_1 HIT) = HIT.
Proof.
  intros h rule.
  assert (Ht : Hand.total h = 16) by reflexivity.
  assert (Hs : Hand.is_soft h = false) by reflexivity.
  assert (Hp : Hand.is_pair h = false) by reflexivity.
  destruct (applies_iff_and_16_vs_10 rule h 10 0 h Ht Hs Hp)
    as (Hiff & H0 & H1 & _).
  split; [exact Ht | split; [exact Hs | split; [exact Hp | split; [|split]]]].
  - apply Hiff. cbn. repeat split; intros; discriminate.
  - exact H0.
  - exact H1.
Defined.

End Deviations.

Section Hard12Against4.

(** C10.  The rule named "12 vs 4 (negative)" carries the threshold 0.0,
    which [applies] reads as a positive deviation.  So on every hard 12
    that is not a pair, against a dealer 4, where basic strategy says
    Stand, the engine answers Hit (the rule's action) when the true count
    is at least 0 and Stand (no rule) when it is below 0, the reverse of
    what the rule's own description, Hit at a true count of at most 0,
    announces. *)
Theorem hard_12_vs_4_deviation (hand : Hand.t) (tc : Q) (cd : bool)
    (Ht : Hand.total hand = 12)
    (Hs : Hand.is_soft hand = false) (Hp : Hand.is_pair hand = false) :
  let basic := BasicStrategy.get_action hand 4 cd in
  basic = STAND
  /\ (exists rule,
        nth_error IndexPlays.plays 11 = Some rule
        /\ IndexPlay.name rule = "12 vs 4 (negative)"%string
        /\ IndexPlay.description rule = "Hit 12 vs 4 at TC ≤ 0"%string
        /\ IndexPlay.true_count_threshold rule = 0%Q
        /\ IndexPlay.basic_action rule = STAND
        /\ IndexPlay.index_action rule = HIT
        /\ ((0 <= tc)%Q ->
            IndexPlays.get_index_action hand 4 tc basic = (HIT, Some rule)))
  /\ ((tc < 0)%Q -> IndexPlays.get_index_action hand 4 tc basic = (STAND, None)).
Proof.
  intros basic.
  assert (Hb : basic = STAND) by (apply get_action_hard_12_vs_4; assumption).
  split; [exact Hb|].
  destruct (applicable_hard_12_vs_4 hand tc Ht Hs Hp) as (r & Hr & Happ).
  split.
  - exists r. injection Hr as <-. repeat split.
    intros Htc. apply ge_true in Htc.
    unfold IndexPlays.get_index_action. rewrite Happ, Htc.
    unfold IndexPlay.get_action.
    cbn [IndexPlay.true_count_threshold IndexPlay.index_action].
    change (IndexPlay.ge 0 0) with true. cbv iota. now rewrite Htc.
  - intros Htc. apply ge_false in Htc.
    unfold IndexPlays.get_index_action. rewrite Happ, Htc, Hb. reflexivity.
Qed.

Lemma hard_12_vs_4_deviation_witness :
  let h := Hand.mk [Card.mk Rank.TEN; Card.mk Rank.TWO] in
  Hand.total h = 12 /\ Hand.is_soft h = false /\ Hand.is_pair h = false
  /\ fst (IndexPlays.get_index_action h 4 0 (BasicStrategy.get_action h 4 true)) = HIT
  /\ fst (IndexPlays.get_index_action h 4 (-1) (BasicStrategy.get_action h 4 true)) = STAND.
Proof.
  intros h.
  assert (Ht : Hand.total h = 12) by reflexivity.
  assert (Hs : Hand.is_soft h = false) by reflexivity.
  assert (Hp : Hand.is_pair h = false) by reflexivity.
  split; [exact Ht | split; [exact Hs | split; [exact Hp | split]]].
  - destruct (hard_12_vs_4_deviation h 0 true Ht Hs Hp)
      as (_ & (r & _ & _ & _ & _ & _ & _ & H) & _).
    rewrite H; [reflexivity | discriminate].
  - destruct (hard_12_vs_4_deviation h (-1) true Ht Hs Hp) as (_ & _ & H).
    rewrite H; reflexivity.
Defined.

End Hard12Against4.

(** ** Advisor: feasibility of the advised action *)

Section Feasibility.

(** C4.  The advised action is never Double when [can_double] is false: a
    Double candidate becomes Hit.  It is never Split unless [can_split]
    holds and the hand is a pair: otherwise a Split candidate becomes
    Stand when the hand total is at least 17 and Hit when it is below 17
    (Stand at exactly 17, Hit at exactly 16).  A candidate that is
    feasible is advised unchanged. *)
Theorem get_advice_feasible (hand : Hand.t) (d : Z) (tc : Q) (cd cs : bool) :
  let basic := BasicStrategy.get_action hand d cd in
  let candidate := fst (IndexPlays.get_index_action hand d tc basic) in
  let result := Advisor.action (Advisor.get_advice hand d tc cd cs) in
  (cd = false -> result <> DOUBLE)
  /\ (cd = false -> candidate = DOUBLE -> result = HIT)
  /\ (cs && Hand.is_pair hand = false -> result <> SPLIT)
  /\ (cs && Hand.is_pair hand = false -> candidate = SPLIT ->
      result = if 17 <=? Hand.total hand then STAND else HIT)
  /\ (cs && Hand.is_pair hand = false -> candidate = SPLIT ->
      (Hand.total hand = 17 -> result = STAND)
      /\ (Hand.total hand = 16 -> result = HIT))
  /\ ((cd = true \/ candidate <> DOUBLE) ->
      (cs && Hand.is_pair hand = true \/ candidate <> SPLIT) ->
      result = candidate).
Proof.
  intros basic candidate result. subst result candidate.
  unfold Advisor.get_advice. fold basic.
  destruct (IndexPlays.get_index_action hand d tc basic) as [fa ip].
  cbn [fst].
  destruct cd, (cs && Hand.is_pair hand); cbn [negb andb];
    repeat (first [case_bool_decide | progress cbn]); subst;
    repeat split; intros; try congruence;
    try (destruct (Z.leb_spec 17 (Hand.total hand)); (congruence || lia));
    try (destruct fa; tauto);
    try (exfalso; intuition congruence).
Qed.

End Feasibility.

Section FeasibilityWitness.

Lemma get_advice_feasible_witness :
  Advisor.action
    (Advisor.get_advice (Hand.mk [Card.mk Rank.FIVE; Card.mk Rank.FIVE])
       2 0 false false) = HIT
  /\ Advisor.action
       (Advisor.get_advice (Hand.mk [Card.mk Rank.TEN; Card.mk Rank.KING])
          5 5 true false) = STAND
  /\ Advisor.action
       (Advisor.get_advice (Hand.mk [Card.mk Rank.EIGHT; Card.mk Rank.EIGHT])
          10 0 true false) = HIT.
Proof.
  split; [|split].
  - destruct (get_advice_feasible
                (Hand.mk [Card.mk Rank.FIVE; Card.mk Rank.FIVE]) 2 0 false false)
      as (_ & H & _).
    apply H; reflexivity.
  - destruct (get_advice_feasible
                (Hand.mk [Card.mk Rank.TEN; Card.mk Rank.KING]) 5 5 true false)
      as (_ & _ & _ & H & _).
    apply H; reflexivity.
  - destruct (get_advice_feasible
                (Hand.mk [Card.mk Rank.EIGHT; Card.mk Rank.EIGHT]) 10 0 true false)
      as (_ & _ & _ & H & _).
    apply H; reflexivity.
Defined.

End FeasibilityWitness.

(** ** Basic strategy against the lookup of the specification *)

Section BasicStrategyLookup.

Lemma lookup_table_entry table key d :
  Spec.table_entry table key d =
    default HIT (BasicStrategy.lookup table key d).
Proof.
  unfold Spec.table_entry, BasicStrategy.lookup.
  destruct (table !! key) as [r|]; reflexivity.
Qed.

Lemma pairs_has_row r : is_Some (BasicStrategy.pairs !! Rank.bj_value r).
Proof. destruct r; vm_compute; eauto. Qed.

Lemma pair_value_id (v : Z) :
  (if v =? 11 then 11 else if v =? 10 then 10 else v) = v.
Proof.
  destruct (Z.eqb_spec v 11); [congruence|].
  destruct (Z.eqb_spec v 10); congruence.
Qed.

Lemma pair_rank_is_Some hand :
  Hand.is_pair hand = true -> is_Some (Hand.pair_rank hand).
Proof.
  unfold Hand.pair_rank. intros H. rewrite H. unfold Hand.is_pair in H.
  destruct (Hand.cards hand) as [|c0 cs]; [discriminate|]. simpl. eauto.
Qed.

(** C2, at the input where the code leaves the claim: a pair of fives
    against a dealer 2 when doubling is not allowed.  The pair block
    returns the table entry as it stands, Double, where the lookup of the
    specification, and the soft and hard blocks of the same function,
    turn it into Hit. *)
Theorem get_action_pair_keeps_double :
  let h := Hand.mk [Card.mk Rank.FIVE; Card.mk Rank.FIVE] in
  Hand.is_pair h = true
  /\ BasicStrategy.get_action h 2 false = DOUBLE
  /\ Spec.strategy_lookup h 2 false = HIT
  /\ BasicStrategy.get_action
       (Hand.mk [Card.mk Rank.SIX; Card.mk Rank.FOUR]) 2 false = HIT.
Proof. repeat split. Qed.

(** A second place where the two part: a lone Ace is a soft 11, which has
    no row in the soft table; the code goes on to the hard table (Double
    on 11), the specification stops at Hit. *)
Lemma get_action_lone_ace :
  let h := Hand.mk [Card.mk Rank.ACE] in
  Hand._calculate_total h = (11, true)
  /\ BasicStrategy.get_action h 2 true = DOUBLE
  /\ Spec.strategy_lookup h 2 true = HIT.
Proof. repeat split. Qed.

(** Everywhere else the code is the lookup of the specification. *)
Lemma get_action_refines_lookup hand d cd :
  (Hand.is_pair hand = true ->
     cd = true \/ BasicStrategy.pair_block hand d <> Some DOUBLE) ->
  (Hand.is_pair hand = false -> Hand.is_soft hand = true ->
     is_Some (BasicStrategy.soft_totals !! Hand.total hand)) ->
  BasicStrategy.get_action hand d cd = Spec.strategy_lookup hand d cd.
Proof.
  intros Hpair Hsoft.
  unfold BasicStrategy.get_action, Spec.strategy_lookup.
  destruct (Hand.is_busted hand); [reflexivity|].
  destruct (Hand.is_blackjack hand); [reflexivity|]. cbn [orb].
  unfold BasicStrategy.pair_block in *.
  destruct (Hand.is_pair hand) eqn:Hp.
  - destruct (pair_rank_is_Some hand Hp) as [r Hr]. rewrite Hr in *.
    cbv zeta in *. rewrite pair_value_id in *.
    rewrite lookup_table_entry.
    destruct (pairs_has_row r) as [rw Hrw].
    unfold BasicStrategy.lookup in *. rewrite Hrw in *.
    cbn [default from_option id].
    destruct (Hpair eq_refl) as [-> | Hne].
    + now rewrite andb_false_r.
    + case_bool_decide as Hd; [|reflexivity]. congruence.
  - unfold BasicStrategy.soft_block, BasicStrategy.hard_block.
    destruct (Hand.is_soft hand) eqn:Hs.
    + destruct (Hsoft eq_refl eq_refl) as [rw Hrw].
      rewrite lookup_table_entry. unfold BasicStrategy.lookup.
      rewrite Hrw. reflexivity.
    + rewrite lookup_table_entry.
      destruct (BasicStrategy.lookup BasicStrategy.hard_totals
                  (Hand.total hand) d) as [a|]; [reflexivity|].
      cbn [default from_option id]. destruct (Hand.total hand <? 5); reflexivity.
Qed.

End BasicStrategyLookup.

(** ** SplitHands: the cursor, the finished set and further splits *)

Section SplitState.

Import SplitHands.
Local Open Scope nat_scope.

(** The first position of [seq a n] that satisfies a test is the least
    one, and there is none only when no position passes. *)
Lemma find_seq_Some (P : nat -> bool) n : forall a i,
  List.find P (seq a n) = Some i ->
  a <= i < a + n /\ P i = true /\ forall j, a <= j < i -> P j = false.
Proof.
  induction n as [|n IH]; intros a i; simpl; [discriminate|].
  destruct (P a) eqn:Pa.
  - intros [= <-]. split; [lia|]. split; [exact Pa|]. intros j Hj. lia.
  - intros H. apply IH in H as (Hr & Hi & Hlow).
    split; [lia|]. split; [exact Hi|].
    intros j Hj. destruct (Nat.eq_dec j a) as [->|Hne]; [exact Pa|].
    apply Hlow. lia.
Qed.

Lemma find_seq_None (P : nat -> bool) n : forall a,
  List.find P (seq a n) = None -> forall j, a <= j < a + n -> P j = false.
Proof.
  induction n as [|n IH]; intros a; simpl; [intros _ j Hj; lia|].
  destruct (P a) eqn:Pa; [discriminate|].
  intros H j Hj. destruct (Nat.eq_dec j a) as [->|Hne]; [exact Pa|].
  apply (IH (S a) H). lia.
Qed.

Lemma wf_iff s :
  wf s = true <->
    current_hand_index s < length (hands s)
    /\ 2 <= length (hands s) <= 4
    /\ completed_hands s ⊆ set_seq 0 (length (hands s)).
Proof.
  unfold wf. rewrite !andb_true_iff, bool_decide_eq_true.
  rewrite Nat.ltb_lt, !Nat.leb_le. tauto.
Qed.

(** With only positions of the list in the set, the two sizes agree
    exactly when every position is in the set. *)
Lemma size_eq_all_in (X : gset nat) n :
  X ⊆ set_seq 0 n -> (size X = n <-> forall i, i < n -> i ∈ X).
Proof.
  intros Hsub. split.
  - intros Hsz i Hi.
    assert (HX : X = set_seq 0 n).
    { apply set_subseteq_size_eq; [exact Hsub|]. rewrite size_set_seq. lia. }
    rewrite HX. apply elem_of_set_seq. lia.
  - intros Hall.
    assert (HX : X = set_seq 0 n).
    { apply set_eq. intros i. rewrite elem_of_set_seq. split.
      - intros Hi. apply Hsub in Hi. now apply elem_of_set_seq in Hi.
      - intros [_ Hi]. apply Hall. lia. }
    rewrite HX. apply size_set_seq.
Qed.

Lemma is_complete_iff s :
  wf s = true ->
  (is_complete s = true <-> forall i, i < length (hands s) -> i ∈ completed_hands s).
Proof.
  intros Hwf. apply wf_iff in Hwf as (_ & _ & Hsub).
  unfold is_complete. rewrite Nat.eqb_eq. now apply size_eq_all_in.
Qed.

Lemma complete_current_hand_hands s :
  hands (complete_current_hand s) = hands s.
Proof.
  unfold complete_current_hand. cbv zeta.
  destruct (List.find _ _); reflexivity.
Qed.

Lemma complete_current_hand_completed s :
  completed_hands (complete_current_hand s)
  = {[current_hand_index s]} ∪ completed_hands s.
Proof.
  unfold complete_current_hand. cbv zeta.
  destruct (List.find _ _); reflexivity.
Qed.

Lemma complete_current_hand_wf s :
  wf s = true -> wf (complete_current_hand s) = true.
Proof.
  intros Hwf. apply wf_iff in Hwf as (Hc & Hlen & Hsub). apply wf_iff.
  rewrite complete_current_hand_hands, complete_current_hand_completed.
  split; [|split; [exact Hlen|]].
  - unfold complete_current_hand. cbv zeta.
    destruct (List.find _ _) as [i|] eqn:E; simpl; [|exact Hc].
    apply find_seq_Some in E. lia.
  - intros i Hi. apply elem_of_set_seq.
    apply elem_of_union in Hi as [Hi|Hi].
    + apply elem_of_singleton in Hi. lia.
    + apply Hsub in Hi. now apply elem_of_set_seq in Hi.
Qed.

(** C5.  [complete_current_hand] adds the cursor to the finished set and
    leaves the hands alone; it then moves the cursor to the lowest
    position that is not in the set, searched from position 0, whatever
    the cursor was (so the cursor may go down), and keeps the cursor when
    every position is in the set.  [is_complete] holds exactly when every
    position is in the finished set. *)
Theorem complete_current_hand_spec (s : SplitHands.t) (Hwf : wf s = true) :
  let s' := complete_current_hand s in
  let n := length (hands s) in
  hands s' = hands s
  /\ completed_hands s' = {[current_hand_index s]} ∪ completed_hands s
  /\ ((exists j, j < n /\ j ∉ completed_hands s') ->
      current_hand_index s' < n
      /\ (current_hand_index s' ∉ completed_hands s')
      /\ forall j, j < n -> j ∉ completed_hands s' -> current_hand_index s' <= j)
  /\ ((forall j, j < n -> j ∈ completed_hands s') ->
      current_hand_index s' = current_hand_index s)
  /\ (is_complete s = true <-> forall i, i < n -> i ∈ completed_hands s)
  /\ (is_complete s' = true <-> forall i, i < n -> i ∈ completed_hands s')
  /\ wf s' = true.
Proof.
  intros s' n.
  pose proof (complete_current_hand_hands s) as Hh.
  pose proof (complete_current_hand_completed s) as Hc.
  pose proof (complete_current_hand_wf s Hwf) as Hwf'.
  fold s' in Hh, Hc, Hwf'.
  split; [exact Hh|]. split; [exact Hc|].
  assert (Hcur :
    match List.find (fun i => bool_decide (i ∉ completed_hands s')) (seq 0 n) with
    | Some i => current_hand_index s' = i
    | None => current_hand_index s' = current_hand_index s
    end).
  { rewrite Hc. subst s' n. unfold complete_current_hand. cbv zeta.
    destruct (List.find _ _); reflexivity. }
  split; [|split; [|split; [|split]]].
  - intros (j & Hj & Hnot).
    destruct (List.find _ (seq 0 n)) as [i|] eqn:E.
    + rewrite Hcur. apply find_seq_Some in E as (Hr & Hi & Hlow).
      apply bool_decide_eq_true in Hi.
      split; [lia|]. split; [exact Hi|].
      intros j' Hj' Hnot'. destruct (Nat.le_gt_cases i j') as [|Hlt]; [assumption|].
      specialize (Hlow j' ltac:(lia)). apply bool_decide_eq_false in Hlow.
      contradiction.
    + pose proof (find_seq_None _ _ _ E j ltac:(lia)) as Hf.
      apply bool_decide_eq_false in Hf. contradiction.
  - intros Hall.
    destruct (List.find _ (seq 0 n)) as [i|] eqn:E; [|exact Hcur].
    apply find_seq_Some in E as (Hr & Hi & _).
    apply bool_decide_eq_true in Hi. exfalso. apply Hi, Hall. lia.
  - now apply is_complete_iff.
  - subst n. rewrite <- Hh. now apply is_complete_iff.
  - exact Hwf'.
Qed.

Lemma not_elem_of_singleton_union_empty (i j : nat) :
  i <> j -> j ∉ ({[i]} ∪ ∅ : gset nat).
Proof.
  intros Hne Hin. apply elem_of_union in Hin as [Hin|Hin].
  - apply elem_of_singleton in Hin. congruence.
  - now apply elem_of_empty in Hin.
Qed.

Lemma complete_current_hand_spec_witness :
  let s := mk [Hand.mk [Card.mk Rank.EIGHT]; Hand.mk [Card.mk Rank.EIGHT]] 0 ∅ in
  wf s = true
  /\ completed_hands (complete_current_hand s) = {[0]} ∪ ∅
  /\ current_hand_index (complete_current_hand s) <= 1.
Proof.
  intros s.
  assert (Hwf : wf s = true) by (vm_compute; reflexivity).
  destruct (complete_current_hand_spec s Hwf) as (_ & Hc & Hlow & _).
  split; [exact Hwf|]. split; [exact Hc|].
  assert (Hnot : 1 ∉ completed_hands (complete_current_hand s))
    by (rewrite Hc; apply not_elem_of_singleton_union_empty; discriminate).
  apply Hlow.
  - exists 1. split; [simpl; lia | exact Hnot].
  - simpl; lia.
  - exact Hnot.
Defined.

(** The cursor after [complete_current_hand] is searched from position 0:
    with three hands, the cursor on the last one and nothing finished, it
    comes back to the first hand. *)
Example complete_current_hand_moves_down :
  let h := Hand.mk [Card.mk Rank.EIGHT] in
  let s := mk [h; h; h] 2 ∅ in
  wf s = true
  /\ current_hand_index (complete_current_hand s) = 0
  /\ is_complete (complete_current_hand s) = false.
Proof. vm_compute. repeat split. Qed.

(** Two hands, one after the other from the constructor on. *)
Example split_state_run :
  exists s0,
    init (Hand.mk [Card.mk Rank.EIGHT; Card.mk Rank.EIGHT]) = inr s0
    /\ length (hands s0) = 2 /\ current_hand_index s0 = 0
    /\ is_complete s0 = false
    /\ current_hand_index (complete_current_hand s0) = 1
    /\ is_complete (complete_current_hand s0) = false
    /\ is_complete (complete_current_hand (complete_current_hand s0)) = true.
Proof. eexists. split; [reflexivity|]. vm_compute. repeat split. Qed.

Lemma is_pair_cards h :
  Hand.is_pair h = true ->
  exists c0 c1, h = Hand.mk [c0; c1] /\ Card.value c0 = Card.value c1.
Proof.
  destruct h as [cs]. unfold Hand.is_pair. simpl.
  destruct cs as [|c0 [|c1 [|c2 cs]]]; try discriminate.
  intros H. apply Z.eqb_eq in H. exists c0, c1. split; [reflexivity | exact H].
Qed.

Lemma list_insert_at_after_insert {A} (l : list A) : forall i x y,
  i < length l ->
  list_insert_at (i + 1) y (<[i:=x]> l) = take i l ++ x :: y :: drop (S i) l.
Proof.
  unfold list_insert_at.
  induction l as [|a l IH]; intros [|i] x y Hi; simpl in *; try lia.
  - reflexivity.
  - f_equal. apply IH. lia.
Qed.

Lemma current_hand_wf s :
  wf s = true -> exists current,
    hands s !! current_hand_index s = Some current /\ current_hand s = inr current.
Proof.
  intros Hwf. apply wf_iff in Hwf as (Hc & _).
  destruct (lookup_lt_is_Some_2 (hands s) (current_hand_index s) Hc) as [h Hh].
  exists h. split; [exact Hh|]. unfold current_hand. now rewrite Hh.
Qed.

(** What [split_current] returns on a well-formed state, by cases. *)
Lemma split_current_cases s current :
  wf s = true ->
  hands s !! current_hand_index s = Some current ->
  (Hand.is_pair current && (length (hands s) <? 4) = false
   /\ split_current s = inl (ValueError "Cannot split current hand"))
  \/ (exists c0 c1,
        Hand.is_pair current = true /\ length (hands s) < 4
        /\ current = Hand.mk [c0; c1] /\ Card.value c0 = Card.value c1
        /\ split_current s =
             inr (mk (take (current_hand_index s) (hands s)
                        ++ Hand.mk [c0] :: Hand.mk [c1]
                        :: drop (S (current_hand_index s)) (hands s))
                     (current_hand_index s) (completed_hands s))).
Proof.
  intros Hwf Hcur. apply wf_iff in Hwf as (Hc & _).
  unfold split_current, can_split_current, current_hand, Hand.can_split.
  rewrite Hcur.
  destruct (Hand.is_pair current) eqn:Hp; [|left; split; reflexivity].
  destruct (Nat.ltb_spec (length (hands s)) 4) as [Hlt|Hge];
    [|left; split; reflexivity].
  right. destruct (is_pair_cards current Hp) as (c0 & c1 & -> & Hv).
  exists c0, c1. cbn [andb negb Hand.cards].
  rewrite list_insert_at_after_insert by exact Hc.
  repeat split; assumption.
Qed.

(** C6.  On a well-formed state, [split_current] fails exactly when the
    hand at the cursor is not a pair or there are already 4 hands, and then
    with a [ValueError].  The limit is the literal 4 of [can_split_current]:
    no [Rules] value is read, so the code agrees with the precondition of
    the specification for the rules whose [max_split_hands] is 4, the
    default ones among them.  When it succeeds the hand at the cursor, a
    pair, is replaced by two one-card hands, one for each of its cards, the
    second right after the first, the hands after the cursor move one place
    to the right, there is one more hand, and the cursor and the finished
    set are unchanged. *)
Theorem split_current_spec (s : SplitHands.t) (Hwf : wf s = true) :
  exists current,
    hands s !! current_hand_index s = Some current
    /\ ((exists e, split_current s = inl e) <->
        Hand.is_pair current = false \/ length (hands s) = 4)
    /\ (forall e, split_current s = inl e ->
        e = ValueError "Cannot split current hand")
    /\ ((exists s', split_current s = inr s') <->
        Hand.is_pair current = true /\ length (hands s) < 4)
    /\ (forall rules, Rules.max_split_hands rules = 4 ->
        (Spec.can_split_current rules s = true <->
         exists s', split_current s = inr s'))
    /\ Rules.max_split_hands Rules.DEFAULT_RULES = 4
    /\ (forall s', split_current s = inr s' ->
        exists c0 c1,
          current = Hand.mk [c0; c1]
          /\ Card.value c0 = Card.value c1
          /\ hands s' =
               take (current_hand_index s) (hands s)
               ++ Hand.mk [c0] :: Hand.mk [c1]
               :: drop (S (current_hand_index s)) (hands s)
          /\ length (hands s') = S (length (hands s))
          /\ current_hand_index s' = current_hand_index s
          /\ completed_hands s' = completed_hands s
          /\ wf s' = true).
Proof.
  destruct (current_hand_wf s Hwf) as (current & Hcur & _).
  exists current. split; [exact Hcur|].
  pose proof (proj1 (wf_iff s) Hwf) as (Hc & Hlen & Hsub).
  assert (Hspec : forall rules, Rules.max_split_hands rules = 4 ->
            Spec.can_split_current rules s
            = Hand.is_pair current && (length (hands s) <? 4)).
  { intros rules Hr. unfold Spec.can_split_current. now rewrite Hcur, Hr. }
  destruct (split_current_cases s current Hwf Hcur)
    as [[Hno ->] | (c0 & c1 & Hp & Hlt & -> & Hv & ->)].
  - split; [|split; [|split; [|split; [|split]]]].
    + apply andb_false_iff in Hno. rewrite Nat.ltb_ge in Hno.
      split; [intros _|eauto].
      destruct Hno as [Hno|Hno]; [left; exact Hno | right; lia].
    + intros e [= <-]. reflexivity.
    + apply andb_false_iff in Hno. rewrite Nat.ltb_ge in Hno.
      split; [intros [s' Hs']; discriminate|].
      intros [Hp Hlt]. destruct Hno as [Hno|Hno]; [congruence | lia].
    + intros rules Hr. rewrite (Hspec rules Hr), Hno.
      split; [discriminate | intros [s' Hs']; discriminate].
    + reflexivity.
    + intros s' Hs'. discriminate.
  - split; [|split; [|split; [|split; [|split]]]].
    + split; [intros [e He]; discriminate|].
      intros [Hno|Hno]; [congruence | lia].
    + intros e He. discriminate.
    + split; [intros _; split; assumption | eauto].
    + intros rules Hr. rewrite (Hspec rules Hr), Hp.
      apply Nat.ltb_lt in Hlt. rewrite Hlt. split; [eauto | reflexivity].
    + reflexivity.
    + intros s' [= <-]. exists c0, c1. cbn [hands current_hand_index completed_hands].
      assert (Hlen' :
        length (take (current_hand_index s) (hands s)
                ++ Hand.mk [c0] :: Hand.mk [c1]
                :: drop (S (current_hand_index s)) (hands s))
        = S (length (hands s))).
      { rewrite length_app, length_take. cbn [length]. rewrite length_drop. lia. }
      repeat split; try assumption; try reflexivity.
      apply wf_iff. cbn [hands current_hand_index completed_hands].
      rewrite Hlen'. split; [lia|]. split; [lia|].
      intros i Hi. apply Hsub in Hi. apply elem_of_set_seq in Hi.
      apply elem_of_set_seq. lia.
Qed.

Lemma split_current_spec_witness :
  let e8 := Card.mk Rank.EIGHT in
  let s := mk [Hand.mk [e8]; Hand.mk [e8; e8]] 1 {[0]} in
  wf s = true
  /\ exists s', split_current s = inr s'
       /\ hands s' = [Hand.mk [e8]; Hand.mk [e8]; Hand.mk [e8]]
       /\ current_hand_index s' = 1.
Proof.
  intros e8 s.
  assert (Hwf : wf s = true) by (vm_compute; reflexivity).
  split; [exact Hwf|].
  destruct (split_current_spec s Hwf)
    as (current & Hcur & _ & _ & Hok & _ & _ & Hres).
  injection Hcur as <-.
  destruct (proj2 Hok) as [s' Hs']; [split; [reflexivity | simpl; lia]|].
  exists s'. split; [exact Hs'|].
  destruct (Hres s' Hs') as (c0 & c1 & Hc & _ & Hh & _ & Hi & _).
  injection Hc as <- <-. split; [exact Hh | exact Hi].
Defined.

(** The claim read with [max_split_hands] taken from the rules of the
    session, as the specification has it: under [Rules(max_split_hands=2)]
    the state reached from a pair of eights by finishing the first hand and
    dealing an eight to the second has as many hands as the rules allow, so
    [split_current] should fail; the code splits it into three hands. *)
Lemma split_current_ignores_rules_limit :
  let e8 := Card.mk Rank.EIGHT in
  let rules := Rules.mk true 6 true false (3 # 2) 2 true (3 # 4) in
  let s := mk [Hand.mk [e8]; Hand.mk [e8; e8]] 1 {[0]} in
  match init (Hand.mk [e8; e8]) with
  | inr s0 => add_card_to_current (complete_current_hand s0) e8 = inr s
  | inl _ => False
  end
  /\ wf s = true
  /\ length (hands s) = Rules.max_split_hands rules
  /\ Spec.can_split_current rules s = false
  /\ split_current s
     = inr (mk [Hand.mk [e8]; Hand.mk [e8]; Hand.mk [e8]] 1 {[0]}).
Proof. vm_compute. repeat split. Qed.

(** At four hands no further split is possible, pair or not. *)
Example split_current_at_max :
  let e8 := Card.mk Rank.EIGHT in
  let s := mk [Hand.mk [e8]; Hand.mk [e8]; Hand.mk [e8]; Hand.mk [e8; e8]] 3
              {[0; 1; 2]} in
  wf s = true
  /\ split_current s = inl (ValueError "Cannot split current hand").
Proof. vm_compute. split; reflexivity. Qed.

Lemma init_wf original_hand s : init original_hand = inr s -> wf s = true.
Proof.
  unfold init, Hand.can_split.
  destruct (Hand.is_pair original_hand) eqn:Hp; [|discriminate].
  destruct (is_pair_cards original_hand Hp) as (c0 & c1 & -> & _).
  intros [= <-]. apply wf_iff. cbn. split; [lia|]. split; [lia|].
  apply empty_subseteq.
Qed.

Lemma add_card_to_current_wf s card s' :
  wf s = true -> add_card_to_current s card = inr s' -> wf s' = true.
Proof.
  intros Hwf. unfold add_card_to_current.
  destruct (current_hand s) as [e|h]; [discriminate|].
  intros [= <-]. apply wf_iff in Hwf. apply wf_iff.
  cbn [hands current_hand_index completed_hands].
  now rewrite length_insert.
Qed.

(** Every state built with the public operations is well formed. *)
Lemma reachable_wf s : reachable s -> wf s = true.
Proof.
  induction 1 as [h s Hinit | s card s' _ IH Hadd | s _ IH | s s' _ IH Hsplit].
  - exact (init_wf h s Hinit).
  - exact (add_card_to_current_wf s card s' IH Hadd).
  - exact (complete_current_hand_wf s IH).
  - destruct (current_hand_wf s IH) as (current & Hcur & _).
    destruct (split_current_cases s current IH Hcur)
      as [[_ Hs] | (c0 & c1 & _ & Hlt & _ & _ & Hs)];
      rewrite Hs in Hsplit; [discriminate|].
    injection Hsplit as <-. apply wf_iff in IH as (Hc & Hlen & Hsub).
    apply wf_iff. cbn [hands current_hand_index completed_hands].
    rewrite length_app, length_take. cbn [length]. rewrite length_drop.
    split; [lia|]. split; [lia|].
    intros i Hi. apply Hsub in Hi. apply elem_of_set_seq in Hi.
    apply elem_of_set_seq. lia.
Qed.

(** The split scenario of the specification: a pair of eights, the first
    hand finished, an eight dealt to the second, which is split again. *)
Example split_state_scenario :
  let e8 := Card.mk Rank.EIGHT in
  match init (Hand.mk [e8; e8]) with
  | inr s0 =>
      match add_card_to_current (complete_current_hand s0) e8 with
      | inr s1 =>
          match split_current s1 with
          | inr s2 =>
              hands s2 = [Hand.mk [e8]; Hand.mk [e8]; Hand.mk [e8]]
              /\ current_hand_index s2 = 1
              /\ is_complete s2 = false
          | inl _ => False
          end
      | inl _ => False
      end
  | inl _ => False
  end.
Proof. vm_compute. repeat split. Qed.

End SplitState.

(** ** Where a Split candidate can come from *)

Section SplitCandidates.

Lemma row_no_split a2 a3 a4 a5 a6 a7 a8 a9 a10 a11 d :
  List.Forall (fun a => a <> SPLIT) [a2; a3; a4; a5; a6; a7; a8; a9; a10; a11] ->
  default HIT (BasicStrategy.row a2 a3 a4 a5 a6 a7 a8 a9 a10 a11 !! d) <> SPLIT.
Proof.
  intros Hall. rewrite List.Forall_forall in Hall.
  destruct (BasicStrategy.row _ _ _ _ _ _ _ _ _ _ !! d) as [a|] eqn:E;
    cbn [default from_option id]; [|discriminate].
  apply Hall. unfold BasicStrategy.row in E.
  apply elem_of_list_to_map_2 in E.
  repeat (apply elem_of_cons in E as [E|E]; [injection E as _ ->; simpl; tauto|]).
  now apply elem_of_nil in E.
Qed.

Ltac table_no_split E :=
  apply elem_of_list_to_map_2 in E;
  repeat (apply elem_of_cons in E as [E|E];
          [injection E as _ ->; apply row_no_split;
           repeat constructor; discriminate|]);
  now apply elem_of_nil in E.

Lemma hard_totals_no_split key d a :
  BasicStrategy.lookup BasicStrategy.hard_totals key d = Some a -> a <> SPLIT.
Proof.
  unfold BasicStrategy.lookup.
  destruct (BasicStrategy.hard_totals !! key) as [r|] eqn:E; [|discriminate].
  intros [= <-]. unfold BasicStrategy.hard_totals in E. table_no_split E.
Qed.

Lemma soft_totals_no_split key d a :
  BasicStrategy.lookup BasicStrategy.soft_totals key d = Some a -> a <> SPLIT.
Proof.
  unfold BasicStrategy.lookup.
  destruct (BasicStrategy.soft_totals !! key) as [r|] eqn:E; [|discriminate].
  intros [= <-]. unfold BasicStrategy.soft_totals in E. table_no_split E.
Qed.

Lemma convert_double_split a cd :
  BasicStrategy.convert_double a cd = SPLIT -> a = SPLIT.
Proof. destruct a, cd; cbv; congruence. Qed.

(** Basic strategy says Split on pairs only. *)
Lemma get_action_split_is_pair hand d cd :
  BasicStrategy.get_action hand d cd = SPLIT -> Hand.is_pair hand = true.
Proof.
  unfold BasicStrategy.get_action.
  destruct (Hand.is_busted hand); [discriminate|].
  destruct (Hand.is_blackjack hand); [discriminate|].
  unfold BasicStrategy.pair_block.
  destruct (Hand.is_pair hand); [reflexivity|].
  assert (Hhard : BasicStrategy.hard_block hand d cd <> SPLIT).
  { unfold BasicStrategy.hard_block. cbv zeta.
    destruct (BasicStrategy.lookup BasicStrategy.hard_totals _ d) as [a|] eqn:E.
    - intros H. apply convert_double_split in H.
      now apply hard_totals_no_split in E.
    - destruct (Hand.total hand <? 5); discriminate. }
  unfold BasicStrategy.soft_block.
  destruct (Hand.is_soft hand); [|intros H; now apply Hhard in H].
  cbv zeta.
  destruct (BasicStrategy.lookup BasicStrategy.soft_totals _ d) as [a|] eqn:E.
  - intros H. apply convert_double_split in H.
    now apply soft_totals_no_split in E.
  - intros H. now apply Hhard in H.
Qed.

Lemma plays_split_are_pairs :
  List.Forall
    (fun p => IndexPlay.index_action p = SPLIT \/ IndexPlay.basic_action p = SPLIT ->
              IndexPlay.is_pair p = true)
    IndexPlays.plays.
Proof.
  unfold IndexPlays.plays.
  repeat constructor; cbn; intros [H|H]; try discriminate; reflexivity.
Qed.

Lemma index_get_action_cases p tc :
  IndexPlay.get_action p tc = IndexPlay.index_action p
  \/ IndexPlay.get_action p tc = IndexPlay.basic_action p.
Proof.
  unfold IndexPlay.get_action.
  destruct (IndexPlay.ge (IndexPlay.true_count_threshold p) 0);
    [destruct (IndexPlay.ge tc _) | destruct (IndexPlay.le tc _)]; auto.
Qed.

(** The candidate of [get_advice] is Split on pairs only: the fallback
    between Stand and Hit is reached with a pair and [can_split] false. *)
Lemma split_candidate_is_pair hand d tc cd :
  fst (IndexPlays.get_index_action hand d tc (BasicStrategy.get_action hand d cd))
  = SPLIT ->
  Hand.is_pair hand = true.
Proof.
  unfold IndexPlays.get_index_action.
  destruct (IndexPlays.get_applicable_plays hand d tc) as [|p ps] eqn:E; cbn [fst].
  - apply get_action_split_is_pair.
  - intros H.
    assert (Hin : In p (IndexPlays.get_applicable_plays hand d tc))
      by (rewrite E; left; reflexivity).
    unfold IndexPlays.get_applicable_plays in Hin.
    apply filter_In in Hin as [Hin Happ].
    apply applies_true in Happ as (_ & _ & _ & Hpair & _). rewrite Hpair.
    pose proof plays_split_are_pairs as F. rewrite List.Forall_forall in F.
    apply (F p Hin).
    destruct (index_get_action_cases p tc) as [Hc|Hc]; [left | right]; congruence.
Qed.

(** The total of a pair is even, or the 12 of two Aces: never 17. *)
Lemma pair_total_not_17 hand : Hand.is_pair hand = true -> Hand.total hand <> 17.
Proof.
  intros Hp. destruct (is_pair_cards hand Hp) as (c0 & c1 & -> & Hv).
  destruct c0 as [r0], c1 as [r1]. destruct r0, r1; try discriminate Hv;
    vm_compute; discriminate.
Qed.

End SplitCandidates.

(** * Further properties of the engine *)

(** ** Cards: text round trip, order of dealing *)

Section CardFacts.







End CardFacts.

(** ** Hands: bounds, blackjack, adding a card, order of the cards *)

Section HandFacts.

Import Hand Derived.














End HandFacts.
